(** * The JNI bootstrap bridge of nitro-app-updater

    A shallow embedding of [android/src/main/cpp/cpp-adapter.cpp]:

<<
    JNIEXPORT jint JNICALL JNI_OnLoad(JavaVM* vm, void* /* unnamed */) {
      __android_log_print(ANDROID_LOG_INFO, "AppUpdater",
                          "JNI_OnLoad called! Initializing Nitro modules...");
      return margelo::nitro::minhnc::appupdater::initialize(vm);
    }
>>

    The function makes two calls into code it does not own: the Android
    logging facility and the module's registration routine.  Both are taken
    as parameters; the bridge is a program in a small monad that threads the
    process state, records every outgoing call in a trace, and propagates a
    C++ exception or a non-returning callee to its own caller. *)

From Stdlib Require Import ZArith NArith String List.
From ExtLib Require Import Structures.Monad.
Import ListNotations.
Import MonadNotation.

Local Open Scope monad_scope.

(** ** Data *)

(** [jint] is a 32-bit signed integer; the bridge does no arithmetic on it,
    so the value is carried as the integer it denotes. *)
Definition jint : Type := Z.

(** A raw pointer ([JavaVM *], [void *]) is the address it holds. *)
Definition pointer : Type := N.

Definition nullptr : pointer := 0%N.

(** Status codes and version constant of [jni.h]. *)
Definition JNI_OK : jint := 0%Z.

Definition JNI_ERR : jint := (-1)%Z.

Definition JNI_VERSION_1_6 : jint := 65542%Z.

(** [android_LogPriority] of [android/log.h]. *)
Inductive android_LogPriority : Type :=
| ANDROID_LOG_UNKNOWN
| ANDROID_LOG_DEFAULT
| ANDROID_LOG_VERBOSE
| ANDROID_LOG_DEBUG
| ANDROID_LOG_INFO
| ANDROID_LOG_WARN
| ANDROID_LOG_ERROR
| ANDROID_LOG_FATAL
| ANDROID_LOG_SILENT.

(** A thrown C++ exception, identified by its description. *)
Definition exn : Type := string.

(** How a call ends: it returns a value, it leaves by an exception, or it
    never comes back. *)
Inductive outcome (A : Type) : Type :=
| Returns (a : A)
| Throws (e : exn)
| Diverges.

Arguments Returns {A} a.
Arguments Throws {A} e.
Arguments Diverges {A}.

(** The calls that leave the translation unit, with their arguments. *)
Inductive event : Type :=
| LogPrint (prio : android_LogPriority) (tag fmt : string)
| Initialize (vm : pointer).

Definition is_LogPrint (ev : event) : bool :=
  match ev with
  | LogPrint _ _ _ => true
  | Initialize _ => false
  end.

(** The handles that were passed to the registration routine, in call order. *)
Fixpoint registrations (t : list event) : list pointer :=
  match t with
  | [] => []
  | Initialize vm :: t' => vm :: registrations t'
  | LogPrint _ _ _ :: t' => registrations t'
  end.

(** The diagnostic records that were emitted, in call order. *)
Definition diagnostics (t : list event) : list event := filter is_LogPrint t.

(** A trace in which every call of the registration routine comes right
    after a diagnostic record of its own, and no record stands alone. *)
Fixpoint announced (t : list event) : bool :=
  match t with
  | [] => true
  | LogPrint _ _ _ :: Initialize _ :: t' => announced t'
  | _ => false
  end.

(** ** The bridge *)

Section Bridge.

(** State of the process outside this translation unit: the log device, the
    Java VM, whatever the registration routine keeps. *)
Variable World : Type.

(** Objects of static storage duration owned by this translation unit.  The
    file declares none; the type is left open, and the external routines
    below have no access to it. *)
Variable Statics : Type.

(** [int __android_log_print(int prio, const char *tag, const char *fmt, ...)]
    of [android/log.h]: a C function, which reports how the write went
    through its return value (positive on success, negative on failure). *)
Variable android_log_print :
  android_LogPriority -> string -> string -> World -> Z * World.

(** [int margelo::nitro::minhnc::appupdater::initialize(JavaVM *vm)], declared
    in [AppUpdaterOnLoad.hpp]: the module's registration routine. *)
Variable initialize : pointer -> World -> outcome jint * World.

Record state : Type := mkState
  { statics : Statics;
    trace : list event;
    world : World }.

Definition M (A : Type) : Type := state -> outcome A * state.

Definition M_ret {A : Type} (a : A) : M A := fun s => (Returns a, s).

Definition M_bind {A B : Type} (m : M A) (k : A -> M B) : M B :=
  fun s =>
    match m s with
    | (Returns a, s') => k a s'
    | (Throws e, s') => (Throws e, s')
    | (Diverges, s') => (Diverges, s')
    end.

#[local] Instance Monad_M : Monad M :=
  {| ret := @M_ret; bind := @M_bind |}.

Definition call_android_log_print
  (prio : android_LogPriority) (tag fmt : string) : M Z :=
  fun s =>
    let (n, w) := android_log_print prio tag fmt (world s) in
    (Returns n,
     {| statics := statics s;
        trace := trace s ++ [LogPrint prio tag fmt];
        world := w |}).

Definition call_initialize (vm : pointer) : M jint :=
  fun s =>
    let (o, w) := initialize vm (world s) in
    (o,
     {| statics := statics s;
        trace := trace s ++ [Initialize vm];
        world := w |}).

Definition JNI_OnLoad (vm : pointer) (reserved : pointer) : M jint :=
  call_android_log_print ANDROID_LOG_INFO "AppUpdater"
    "JNI_OnLoad called! Initializing Nitro modules..." ;;
  call_initialize vm.

(** The record the bridge emits. *)
Definition banner : event :=
  LogPrint ANDROID_LOG_INFO "AppUpdater"
    "JNI_OnLoad called! Initializing Nitro modules...".

(** The world in which the registration routine is entered: the one the
    logging call leaves behind. *)
Definition world_after_log (w : World) : World :=
  snd (android_log_print ANDROID_LOG_INFO "AppUpdater"
         "JNI_OnLoad called! Initializing Nitro modules..." w).

(** The calls one load with handle [fst h] adds to the trace. *)
Definition load_events (h : pointer * pointer) : list event :=
  [banner; Initialize (fst h)].

(** The host delivers one load notification after the other, each with its
    handle and reserved argument, and collects the status codes.  A load that
    throws or does not come back ends the sequence. *)
Fixpoint loads (hs : list (pointer * pointer)) : M (list jint) :=
  match hs with
  | [] => ret []
  | h :: hs' =>
      c <- JNI_OnLoad (fst h) (snd h) ;;
      cs <- loads hs' ;;
      ret (c :: cs)
  end.

End Bridge.

Arguments mkState {World Statics} _ _ _.
Arguments statics {World Statics} _.
Arguments trace {World Statics} _.
Arguments world {World Statics} _.
Arguments JNI_OnLoad {World Statics} _ _ _ _ _.
Arguments world_after_log {World} _ _.
Arguments loads {World Statics} _ _ _ _.

(** ** The logging call as any other call

    Above, the logging call returns by its type, as the platform's C function
    does.  The source itself puts no handler around it.  Here the same two
    statements are read with a logging call that, like the registration
    routine, may return, throw or never come back. *)

Module AnyCallee.

Section Bridge.

Variable World : Type.
Variable Statics : Type.
Variable android_log_print :
  android_LogPriority -> string -> string -> World -> outcome Z * World.
Variable initialize : pointer -> World -> outcome jint * World.

#[local] Existing Instance Monad_M.

Definition call_android_log_print
  (prio : android_LogPriority) (tag fmt : string) : M World Statics Z :=
  fun s =>
    let (o, w) := android_log_print prio tag fmt (world s) in
    (o,
     {| statics := statics s;
        trace := trace s ++ [LogPrint prio tag fmt];
        world := w |}).

Definition JNI_OnLoad (vm : pointer) (reserved : pointer)
  : M World Statics jint :=
  call_android_log_print ANDROID_LOG_INFO "AppUpdater"
    "JNI_OnLoad called! Initializing Nitro modules..." ;;
  call_initialize World Statics initialize vm.

(** A logging call that returns by its type, seen as one that need not. *)
Definition returning
  (log : android_LogPriority -> string -> string -> World -> Z * World)
  : android_LogPriority -> string -> string -> World -> outcome Z * World :=
  fun prio tag fmt w =>
    let (n, w') := log prio tag fmt w in (Returns n, w').

End Bridge.

Arguments JNI_OnLoad {World Statics} _ _ _ _ _.
Arguments returning {World} _ _ _ _ _.

End AnyCallee.

(** ** A concrete process

    A small host on which the bridge can be run: its world is a device with
    the content of the log buffer and the list of virtual machines on which
    the module's natives are registered. *)

Module Demo.

Record device : Type := mkDevice
  { logcat : list (android_LogPriority * string * string);
    registered : list pointer }.

Definition boot : device := {| logcat := []; registered := [] |}.

(** The log daemon is up: the record is stored and the call reports success. *)
Definition logd_up (prio : android_LogPriority) (tag fmt : string)
  (w : device) : Z * device :=
  (1%Z,
   {| logcat := logcat w ++ [(prio, tag, fmt)];
      registered := registered w |}).

(** The log daemon is down: nothing is stored and the call reports [-EAGAIN]. *)
Definition logd_down (prio : android_LogPriority) (tag fmt : string)
  (w : device) : Z * device :=
  ((-11)%Z, w).

(** Logging is switched off for the tag: nothing is stored, and the call
    reports success. *)
Definition logd_muted (prio : android_LogPriority) (tag fmt : string)
  (w : device) : outcome Z * device :=
  (Returns 1%Z, w).

(** The log daemon is down and the call says so through its return value. *)
Definition logd_refusing (prio : android_LogPriority) (tag fmt : string)
  (w : device) : outcome Z * device :=
  (Returns (-11)%Z, w).

(** A logging call that fails by an exception. *)
Definition logd_throwing (prio : android_LogPriority) (tag fmt : string)
  (w : device) : outcome Z * device :=
  (Throws "logd"%string, w).


(** A registration routine that succeeds on every handle it is given. *)
Definition register_ok (vm : pointer) (w : device) : outcome jint * device :=
  (Returns JNI_OK,
   {| logcat := logcat w; registered := registered w ++ [vm] |}).

(** A registration routine that cannot install its bindings. *)
Definition register_err (vm : pointer) (w : device) : outcome jint * device :=
  (Returns JNI_ERR, w).

(** A registration routine that signals its failure by an exception. *)
Definition register_throwing (vm : pointer) (w : device)
  : outcome jint * device :=
  (Throws "std::runtime_error"%string, w).

(** A registration routine that never comes back. *)
Definition register_hanging (vm : pointer) (w : device)
  : outcome jint * device :=
  (Diverges, w).

(** A registration routine with a guard of its own: the first call registers
    and answers with the JNI version, every later one is refused. *)
Definition register_once (vm : pointer) (w : device) : outcome jint * device :=
  match registered w with
  | [] =>
      (Returns JNI_VERSION_1_6,
       {| logcat := logcat w; registered := [vm] |})
  | _ :: _ => (Returns JNI_ERR, w)
  end.

Definition vm0 : pointer := 3735928559%N.

Definition vm1 : pointer := 3203386110%N.

(** The storage of the translation unit is given room for one handle. *)
Definition start : state device (option pointer) :=
  {| statics := None; trace := []; world := boot |}.

(** The same device with a different past: a handle sits in the storage and
    the trace shows an earlier load. *)
Definition later : state device (option pointer) :=
  {| statics := Some 7%N;
     trace := [banner; Initialize 7%N];
     world := boot |}.

End Demo.

(** ** Traces *)

Lemma registrations_app (t1 t2 : list event) :
  registrations (t1 ++ t2) = registrations t1 ++ registrations t2.
Proof.
  induction t1 as [|ev t1 IH]; [reflexivity|].
  destruct ev as [prio tag fmt|vm]; cbn; [exact IH | now rewrite IH].
Qed.

Lemma diagnostics_app (t1 t2 : list event) :
  diagnostics (t1 ++ t2) = diagnostics t1 ++ diagnostics t2.
Proof. apply filter_app. Qed.

(** ** What one call does *)

Section BridgeFacts.

Variable World : Type.
Variable Statics : Type.
Variable android_log_print :
  android_LogPriority -> string -> string -> World -> Z * World.
Variable initialize : pointer -> World -> outcome jint * World.

Local Notation "'run'" := (JNI_OnLoad android_log_print initialize).
Local Notation "'entry'" := (world_after_log android_log_print).

(** Every run of the bridge, whatever the two callees do, has this shape. *)
Lemma JNI_OnLoad_run (vm reserved : pointer) (s : state World Statics) :
  run vm reserved s =
  (fst (initialize vm (entry (world s))),
   {| statics := statics s;
      trace := trace s ++ [banner; Initialize vm];
      world := snd (initialize vm (entry (world s))) |}).
Proof.
  unfold JNI_OnLoad, world_after_log, banner. cbn.
  unfold M_bind, call_android_log_print, call_initialize.
  destruct (android_log_print _ _ _ (world s)) as [n w1]. cbn.
  destruct (initialize vm w1) as [o w2]. cbn.
  rewrite <- app_assoc. reflexivity.
Qed.

(** C1 (pass-through of the registration status).  For every handle, the
    way [JNI_OnLoad] ends is the way [initialize] ends on that handle, in the
    world the logging call left: a returned status code is returned as it
    is, with no translation and no change. *)
Theorem JNI_OnLoad_pass_through (vm reserved : pointer)
  (s : state World Statics) :
  fst (run vm reserved s) = fst (initialize vm (entry (world s))).
Proof. rewrite JNI_OnLoad_run. reflexivity. Qed.

(** C2, as the code has it (no null check).  A null handle takes the same
    path as any other: the record is emitted, [initialize] is called once
    with the null handle, and its outcome is the outcome of [JNI_OnLoad];
    the bridge itself does nothing else with the handle. *)
Theorem JNI_OnLoad_null_forwarded (reserved : pointer)
  (s : state World Statics) :
  fst (run nullptr reserved s) = fst (initialize nullptr (entry (world s)))
  /\ trace (snd (run nullptr reserved s))
     = trace s ++ [banner; Initialize nullptr]
  /\ registrations (trace (snd (run nullptr reserved s)))
     = registrations (trace s) ++ [nullptr].
Proof.
  rewrite JNI_OnLoad_run. cbn [fst snd trace].
  rewrite registrations_app. repeat split.
Qed.

(** C3 (diagnostic ordering and multiplicity).  One call of [JNI_OnLoad]
    extends the trace by exactly two calls: first the informational record
    with tag AppUpdater, then the registration routine.  So exactly one
    record is emitted, ahead of the registration, whatever the registration
    routine then answers.  The two calls are really made, in that order: the
    record goes to the logging facility in the world the host supplied, the
    registration routine runs on the handle in the world the logging call
    left, and its outcome and world are those of [JNI_OnLoad]. *)
Theorem JNI_OnLoad_diagnostic_first (vm reserved : pointer)
  (s : state World Statics) :
  trace (snd (run vm reserved s)) = trace s ++ [banner; Initialize vm]
  /\ diagnostics (trace (snd (run vm reserved s)))
     = diagnostics (trace s) ++ [banner]
  /\ fst (run vm reserved s)
     = fst (initialize vm
              (snd (android_log_print ANDROID_LOG_INFO "AppUpdater"
                      "JNI_OnLoad called! Initializing Nitro modules..."
                      (world s))))
  /\ world (snd (run vm reserved s))
     = snd (initialize vm
              (snd (android_log_print ANDROID_LOG_INFO "AppUpdater"
                      "JNI_OnLoad called! Initializing Nitro modules..."
                      (world s)))).
Proof.
  rewrite JNI_OnLoad_run. cbn [fst snd trace world].
  rewrite diagnostics_app. repeat split.
Qed.

(** C5, as the code has it (no handler in the bridge).  The bridge raises no
    exception of its own: when [initialize] returns a status, [JNI_OnLoad]
    returns that status; an exception leaves [JNI_OnLoad] exactly when
    [initialize] threw it, and it is that same exception, not a status
    code. *)
Theorem JNI_OnLoad_fault_transparent (vm reserved : pointer)
  (s : state World Statics) :
  (forall c : jint,
      fst (initialize vm (entry (world s))) = Returns c ->
      fst (run vm reserved s) = Returns c)
  /\ (forall e : exn,
      fst (initialize vm (entry (world s))) = Throws e ->
      fst (run vm reserved s) = Throws e)
  /\ (forall e : exn,
      fst (run vm reserved s) = Throws e ->
      fst (initialize vm (entry (world s))) = Throws e).
Proof.
  rewrite JNI_OnLoad_run. cbn [fst]. repeat split; intros ? H; exact H.
Qed.

(** C6 (single delegation, no retry).  One call of [JNI_OnLoad] calls
    [initialize] exactly once, with the handle the host supplied; the
    outcome and the world are those that single call left, also when it
    answered with a failure code. *)
Theorem JNI_OnLoad_registers_once (vm reserved : pointer)
  (s : state World Statics) :
  registrations (trace (snd (run vm reserved s)))
  = registrations (trace s) ++ [vm]
  /\ fst (run vm reserved s) = fst (initialize vm (entry (world s)))
  /\ world (snd (run vm reserved s)) = snd (initialize vm (entry (world s))).
Proof.
  rewrite JNI_OnLoad_run. cbn [fst snd trace world].
  rewrite registrations_app. repeat split.
Qed.

(** C7 (statelessness).  [JNI_OnLoad] leaves the storage of its translation
    unit as it found it, so the handle is kept nowhere; and what a call does
    depends on the handle and the outside world only: two processes with the
    same world but different storage and different pasts get the same
    outcome, the same new world and the same two calls. *)
Theorem JNI_OnLoad_stateless (vm reserved : pointer)
  (s1 s2 : state World Statics) :
  world s1 = world s2 ->
  statics (snd (run vm reserved s1)) = statics s1
  /\ fst (run vm reserved s1) = fst (run vm reserved s2)
  /\ world (snd (run vm reserved s1)) = world (snd (run vm reserved s2))
  /\ trace (snd (run vm reserved s1)) = trace s1 ++ [banner; Initialize vm]
  /\ trace (snd (run vm reserved s2)) = trace s2 ++ [banner; Initialize vm].
Proof.
  intros Hw. rewrite !JNI_OnLoad_run. cbn [fst snd statics world trace].
  rewrite Hw. repeat split.
Qed.


(** C10 (the reserved parameter is ignored).  Two calls that differ only in
    the unnamed second argument have the same outcome and leave the same
    state; in particular [initialize] is handed the same argument in both. *)
Theorem JNI_OnLoad_reserved_ignored (vm reserved1 reserved2 : pointer)
  (s : state World Statics) :
  run vm reserved1 s = run vm reserved2 s
  /\ fst (run vm reserved1 s) = fst (initialize vm (entry (world s)))
  /\ registrations (trace (snd (run vm reserved1 s)))
     = registrations (trace (snd (run vm reserved2 s))).
Proof.
  rewrite !JNI_OnLoad_run. cbn [fst snd trace].
  repeat split.
Qed.

End BridgeFacts.

(** ** Runs on the concrete process *)

(** The registration routine answers 0: the host gets 0. *)
Example load_succeeds :
  JNI_OnLoad Demo.logd_up Demo.register_ok Demo.vm0 0%N Demo.start
  = (Returns 0%Z,
     {| statics := None;
        trace := [banner; Initialize Demo.vm0];
        world :=
          {| Demo.logcat :=
               [(ANDROID_LOG_INFO, "AppUpdater"%string,
                 "JNI_OnLoad called! Initializing Nitro modules..."%string)];
             Demo.registered := [Demo.vm0] |} |}).
Proof. reflexivity. Qed.

(** The registration routine answers -1: the host gets -1, and the record
    was emitted once all the same. *)
Example load_fails :
  let r := JNI_OnLoad Demo.logd_up Demo.register_err Demo.vm0 0%N Demo.start in
  fst r = Returns (-1)%Z
  /\ diagnostics (trace (snd r)) = [banner]
  /\ registrations (trace (snd r)) = [Demo.vm0].
Proof. repeat split. Qed.

(** The log daemon is down: the host still gets the status of the
    registration routine. *)
Example load_without_logd :
  fst (JNI_OnLoad Demo.logd_down Demo.register_ok Demo.vm0 0%N Demo.start)
  = Returns 0%Z
  /\ fst (JNI_OnLoad Demo.logd_down Demo.register_err Demo.vm0 0%N Demo.start)
     = Returns (-1)%Z.
Proof. split; reflexivity. Qed.

(** Loaded twice, with a registration routine that refuses a second
    registration: the refusal is the routine's, and the bridge hands it on. *)
Example load_twice :
  let r1 :=
    JNI_OnLoad Demo.logd_up Demo.register_once Demo.vm0 0%N Demo.start in
  let r2 := JNI_OnLoad Demo.logd_up Demo.register_once Demo.vm0 0%N (snd r1) in
  fst r1 = Returns JNI_VERSION_1_6
  /\ fst r2 = Returns JNI_ERR
  /\ trace (snd r2)
     = [banner; Initialize Demo.vm0; banner; Initialize Demo.vm0].
Proof. repeat split. Qed.

(** A registration routine that never comes back keeps the bridge from
    coming back. *)
Example load_hangs :
  fst (JNI_OnLoad Demo.logd_up Demo.register_hanging Demo.vm0 0%N Demo.start)
  = Diverges.
Proof. reflexivity. Qed.

(** C2 fails as stated: handed a null handle, the bridge does call the
    registration routine, with that null handle, and here returns the
    success code the routine gave. *)
Lemma JNI_OnLoad_null_not_short_circuited :
  let r := JNI_OnLoad Demo.logd_up Demo.register_ok nullptr 0%N Demo.start in
  fst r = Returns JNI_OK
  /\ registrations (trace (snd r)) = [nullptr]
  /\ registrations (trace (snd r)) <> registrations (trace Demo.start).
Proof. repeat split. discriminate. Qed.

(** C5 fails as stated: an exception thrown by the registration routine
    leaves [JNI_OnLoad] as an exception; no status code is returned. *)
Lemma JNI_OnLoad_exception_escapes :
  let r :=
    JNI_OnLoad Demo.logd_up Demo.register_throwing Demo.vm0 0%N Demo.start in
  fst r = Throws "std::runtime_error"%string
  /\ ~ (exists c : jint, fst r = Returns c).
Proof. split; [reflexivity | intros [c H]; discriminate H]. Qed.

(** [JNI_OnLoad_fault_transparent] at a throwing registration routine. *)
Lemma JNI_OnLoad_fault_transparent_witness :
  fst (Demo.register_throwing Demo.vm0
         (world_after_log Demo.logd_up (world Demo.start)))
  = Throws "std::runtime_error"%string
  /\ fst (JNI_OnLoad Demo.logd_up Demo.register_throwing Demo.vm0 0%N
            Demo.start)
     = Throws "std::runtime_error"%string.
Proof.
  split; [reflexivity|].
  apply (JNI_OnLoad_fault_transparent _ _ Demo.logd_up Demo.register_throwing
           Demo.vm0 0%N Demo.start).
  reflexivity.
Defined.

(** [JNI_OnLoad_stateless] on two processes with the same device, one fresh
    and one with a handle in its storage and an earlier load in its trace. *)
Lemma JNI_OnLoad_stateless_witness :
  world Demo.start = world Demo.later
  /\ statics (snd (JNI_OnLoad Demo.logd_up Demo.register_once Demo.vm0 0%N
                     Demo.start))
     = statics Demo.start
  /\ fst (JNI_OnLoad Demo.logd_up Demo.register_once Demo.vm0 0%N Demo.start)
     = fst (JNI_OnLoad Demo.logd_up Demo.register_once Demo.vm0 0%N
              Demo.later)
  /\ world (snd (JNI_OnLoad Demo.logd_up Demo.register_once Demo.vm0 0%N
                   Demo.start))
     = world (snd (JNI_OnLoad Demo.logd_up Demo.register_once Demo.vm0 0%N
                     Demo.later))
  /\ trace (snd (JNI_OnLoad Demo.logd_up Demo.register_once Demo.vm0 0%N
                   Demo.start))
     = trace Demo.start ++ [banner; Initialize Demo.vm0]
  /\ trace (snd (JNI_OnLoad Demo.logd_up Demo.register_once Demo.vm0 0%N
                   Demo.later))
     = trace Demo.later ++ [banner; Initialize Demo.vm0].
Proof.
  split; [reflexivity|].
  apply (JNI_OnLoad_stateless _ _ Demo.logd_up Demo.register_once
           Demo.vm0 0%N Demo.start Demo.later).
  reflexivity.
Defined.

(** ** Further facts: what reaches the log, and sequences of loads *)

Lemma announced_app (t1 t2 : list event) :
  announced t1 = true -> announced (t1 ++ t2) = announced t2.
Proof.
  enough (H : (announced t1 = true -> announced (t1 ++ t2) = announced t2)
              /\ (forall ev, announced (ev :: t1) = true ->
                             announced ((ev :: t1) ++ t2) = announced t2))
    by exact (proj1 H).
  induction t1 as [|ev1 t1 [IH1 IH2]].
  - split; [reflexivity|]. intros [prio tag fmt|vm] H; discriminate H.
  - split; [intros H; exact (IH2 ev1 H)|].
    intros [prio tag fmt|vm] H; [|discriminate H].
    destruct ev1 as [prio1 tag1 fmt1|vm1]; [discriminate H|].
    cbn in H |- *. exact (IH1 H).
Qed.

Lemma announced_load_events (l : list (pointer * pointer)) :
  announced (flat_map load_events l) = true.
Proof. induction l as [|h l IH]; [reflexivity | exact IH]. Qed.

Lemma registrations_load_events (l : list (pointer * pointer)) :
  registrations (flat_map load_events l) = map fst l.
Proof.
  induction l as [|h l IH]; [reflexivity|]. cbn. now rewrite IH.
Qed.

Lemma diagnostics_load_events (l : list (pointer * pointer)) :
  List.length (diagnostics (flat_map load_events l)) = List.length l.
Proof.
  induction l as [|h l IH]; [reflexivity|].
  change (flat_map load_events (h :: l))
    with (load_events h ++ flat_map load_events l).
  rewrite diagnostics_app, length_app, IH. reflexivity.
Qed.

Section LoadsFacts.

Variable World : Type.
Variable Statics : Type.
Variable android_log_print :
  android_LogPriority -> string -> string -> World -> Z * World.
Variable initialize : pointer -> World -> outcome jint * World.

Local Notation "'run'" := (JNI_OnLoad android_log_print initialize).
Local Notation "'run_all'" := (loads android_log_print initialize).

Lemma loads_cons (h : pointer * pointer) (hs : list (pointer * pointer))
  (s : state World Statics) :
  run_all (h :: hs) s =
  match run (fst h) (snd h) s with
  | (Returns c, s1) =>
      match run_all hs s1 with
      | (Returns cs, s2) => (Returns (c :: cs), s2)
      | (Throws e, s2) => (Throws e, s2)
      | (Diverges, s2) => (Diverges, s2)
      end
  | (Throws e, s1) => (Throws e, s1)
  | (Diverges, s1) => (Diverges, s1)
  end.
Proof.
  cbn [loads bind ret Monad_M]. unfold M_bind at 1.
  destruct (run (fst h) (snd h) s) as [[c|e|] s1]; reflexivity.
Qed.

(** A sequence of loads enters some of its loads, in order, and the trace
    grows by the calls of exactly those; it enters all of them when it
    returns.  The storage of the translation unit comes out as it went in. *)
Lemma loads_run (hs : list (pointer * pointer)) (s : state World Statics) :
  exists k : nat,
    k <= List.length hs
    /\ trace (snd (run_all hs s))
       = trace s ++ flat_map load_events (firstn k hs)
    /\ statics (snd (run_all hs s)) = statics s
    /\ (forall cs : list jint,
           fst (run_all hs s) = Returns cs ->
           k = List.length hs /\ List.length cs = List.length hs).
Proof.
  revert s. induction hs as [|h hs IH]; intros s.
  - exists 0. cbn. rewrite app_nil_r.
    split; [apply le_n|]. split; [reflexivity|]. split; [reflexivity|].
    intros cs H. injection H as <-. split; reflexivity.
  - rewrite loads_cons.
    pose proof (JNI_OnLoad_run World Statics android_log_print initialize
                  (fst h) (snd h) s) as Hrun.
    destruct (run (fst h) (snd h) s) as [o s1].
    injection Hrun as Ho Hs1.
    assert (Ht : trace s1 = trace s ++ load_events h) by (subst s1; reflexivity).
    assert (Hst : statics s1 = statics s) by (subst s1; reflexivity).
    clear Hs1 Ho.
    destruct o as [c|e|].
    + destruct (IH s1) as (k & Hk & Htr & Hstat & Hret).
      exists (S k).
      assert (Htr' : trace (snd (run_all hs s1))
                     = trace s ++ flat_map load_events (firstn (S k) (h :: hs))).
      { rewrite Htr, Ht, <- app_assoc. reflexivity. }
      assert (Hstat' : statics (snd (run_all hs s1)) = statics s)
        by (rewrite Hstat; exact Hst).
      destruct (run_all hs s1) as [[cs|e|] s2]; cbn [fst snd] in *;
        (split; [apply le_n_S; exact Hk|]);
        (split; [exact Htr'|]); (split; [exact Hstat'|]);
        intros cs' H; try discriminate H.
      injection H as <-.
      destruct (Hret cs eq_refl) as [Hk' Hcs].
      cbn [List.length]. rewrite Hk', Hcs. split; reflexivity.
    + exists 1. cbn [fst snd firstn flat_map]. rewrite app_nil_r.
      split; [apply le_n_S, Nat.le_0_l|].
      split; [exact Ht|]. split; [exact Hst|].
      intros cs H; discriminate H.
    + exists 1. cbn [fst snd firstn flat_map]. rewrite app_nil_r.
      split; [apply le_n_S, Nat.le_0_l|].
      split; [exact Ht|]. split; [exact Hst|].
      intros cs H; discriminate H.
Qed.

(** X2 (a sequence of loads that returns).  When the host delivers the
    loads [hs] one after the other and every one of them returns, it gets
    one status code per load; the trace has grown by one record and one
    registration per load, in the order of the loads, and the registration
    routine was handed exactly the handles of the loads, in that order. *)
Theorem loads_returns (hs : list (pointer * pointer))
  (s : state World Statics) (cs : list jint) :
  fst (run_all hs s) = Returns cs ->
  List.length cs = List.length hs
  /\ trace (snd (run_all hs s)) = trace s ++ flat_map load_events hs
  /\ registrations (trace (snd (run_all hs s)))
     = registrations (trace s) ++ map fst hs
  /\ List.length (diagnostics (trace (snd (run_all hs s))))
     = List.length (diagnostics (trace s)) + List.length hs.
Proof.
  intros Hret.
  destruct (loads_run hs s) as (k & _ & Htr & _ & Hall).
  destruct (Hall cs Hret) as [-> Hlen].
  rewrite firstn_all in Htr. rewrite Htr.
  rewrite registrations_app, registrations_load_events.
  rewrite diagnostics_app, length_app, diagnostics_load_events.
  split; [exact Hlen|]. split; [reflexivity|]. split; reflexivity.
Qed.

(** X3 (every registration is announced).  If so far every call of the
    registration routine came right after a diagnostic record, and no record
    stood alone, then the same holds after one more call of [JNI_OnLoad],
    however the registration routine ends. *)
Theorem JNI_OnLoad_keeps_announced (vm reserved : pointer)
  (s : state World Statics) :
  announced (trace s) = true ->
  announced (trace (snd (run vm reserved s))) = true.
Proof.
  intros Hann. rewrite JNI_OnLoad_run. cbn [snd trace].
  rewrite (announced_app _ _ Hann). reflexivity.
Qed.

(** X4 (what a sequence of loads keeps, also when it breaks off).  Whether
    the loads all return or one of them throws or hangs, the storage of the
    translation unit is left as it was, the trace still has every
    registration right after its record, and there are still as many records
    as registrations if there were before. *)
Theorem loads_keep (hs : list (pointer * pointer))
  (s : state World Statics) :
  announced (trace s) = true ->
  List.length (diagnostics (trace s))
  = List.length (registrations (trace s)) ->
  statics (snd (run_all hs s)) = statics s
  /\ announced (trace (snd (run_all hs s))) = true
  /\ List.length (diagnostics (trace (snd (run_all hs s))))
     = List.length (registrations (trace (snd (run_all hs s)))).
Proof.
  intros Hann Hcount.
  destruct (loads_run hs s) as (k & _ & Htr & Hst & _).
  split; [exact Hst|]. rewrite Htr. split.
  - rewrite (announced_app _ _ Hann). apply announced_load_events.
  - rewrite diagnostics_app, registrations_app, !length_app.
    rewrite diagnostics_load_events, registrations_load_events, length_map.
    rewrite Hcount. reflexivity.
Qed.

End LoadsFacts.

(** X1 (the handle does not reach the log).  The diagnostic records of a
    call are the same whatever handle and reserved argument the host passes
    and whatever the registration routine is: the logging call takes
    constants only, so neither pointer is disclosed to the log. *)
Theorem JNI_OnLoad_handle_not_logged (World Statics : Type)
  (android_log_print :
     android_LogPriority -> string -> string -> World -> Z * World)
  (initialize1 initialize2 : pointer -> World -> outcome jint * World)
  (vm1 vm2 reserved1 reserved2 : pointer) (s : state World Statics) :
  diagnostics
    (trace (snd (JNI_OnLoad android_log_print initialize1 vm1 reserved1 s)))
  = diagnostics
      (trace (snd (JNI_OnLoad android_log_print initialize2 vm2 reserved2 s)))
  /\ diagnostics
       (trace (snd (JNI_OnLoad android_log_print initialize1 vm1 reserved1 s)))
     = diagnostics (trace s) ++ [banner].
Proof.
  rewrite !JNI_OnLoad_run. cbn [snd trace].
  rewrite !diagnostics_app. split; reflexivity.
Qed.

(** [loads_returns] on three loads, the last with a null handle. *)
Lemma loads_returns_witness :
  fst (loads Demo.logd_up Demo.register_ok
         [(Demo.vm0, 0%N); (Demo.vm1, 0%N); (nullptr, 5%N)] Demo.start)
  = Returns [JNI_OK; JNI_OK; JNI_OK]
  /\ registrations
       (trace (snd (loads Demo.logd_up Demo.register_ok
                      [(Demo.vm0, 0%N); (Demo.vm1, 0%N); (nullptr, 5%N)]
                      Demo.start)))
     = registrations (trace Demo.start)
       ++ map fst [(Demo.vm0, 0%N); (Demo.vm1, 0%N); (nullptr, 5%N)].
Proof.
  assert (H : fst (loads Demo.logd_up Demo.register_ok
                     [(Demo.vm0, 0%N); (Demo.vm1, 0%N); (nullptr, 5%N)]
                     Demo.start)
              = Returns [JNI_OK; JNI_OK; JNI_OK])
    by reflexivity.
  split; [exact H|].
  exact (proj1 (proj2 (proj2
           (loads_returns _ _ Demo.logd_up Demo.register_ok
              [(Demo.vm0, 0%N); (Demo.vm1, 0%N); (nullptr, 5%N)]
              Demo.start [JNI_OK; JNI_OK; JNI_OK] H)))).
Defined.

(** [JNI_OnLoad_keeps_announced] on a process with one load behind it and a
    registration routine that throws. *)
Lemma JNI_OnLoad_keeps_announced_witness :
  announced (trace Demo.later) = true
  /\ announced
       (trace (snd (JNI_OnLoad Demo.logd_up Demo.register_throwing Demo.vm0
                      0%N Demo.later)))
     = true.
Proof.
  assert (H : announced (trace Demo.later) = true) by reflexivity.
  split; [exact H|].
  exact (JNI_OnLoad_keeps_announced _ _ Demo.logd_up Demo.register_throwing
           Demo.vm0 0%N Demo.later H).
Defined.

(** [loads_keep] on two loads of which the first throws. *)
Lemma loads_keep_witness :
  announced (trace Demo.later) = true
  /\ List.length (diagnostics (trace Demo.later))
     = List.length (registrations (trace Demo.later))
  /\ fst (loads Demo.logd_up Demo.register_throwing
            [(Demo.vm0, 0%N); (Demo.vm1, 0%N)] Demo.later)
     = Throws "std::runtime_error"%string
  /\ statics (snd (loads Demo.logd_up Demo.register_throwing
                     [(Demo.vm0, 0%N); (Demo.vm1, 0%N)] Demo.later))
     = statics Demo.later.
Proof.
  assert (H1 : announced (trace Demo.later) = true) by reflexivity.
  assert (H2 : List.length (diagnostics (trace Demo.later))
               = List.length (registrations (trace Demo.later)))
    by reflexivity.
  split; [exact H1|]. split; [exact H2|]. split; [reflexivity|].
  exact (proj1 (loads_keep _ _ Demo.logd_up Demo.register_throwing
                  [(Demo.vm0, 0%N); (Demo.vm1, 0%N)] Demo.later H1 H2)).
Defined.

(** ** The logging call as any other call: facts *)

Section AnyCalleeFacts.

Variable World : Type.
Variable Statics : Type.
Variable initialize : pointer -> World -> outcome jint * World.

(** A run with a logging call that may fail in any way: the registration
    routine is reached only when the logging call has returned. *)
Lemma JNI_OnLoad_any_run
  (android_log_print :
     android_LogPriority -> string -> string -> World -> outcome Z * World)
  (vm reserved : pointer) (s : state World Statics) :
  AnyCallee.JNI_OnLoad android_log_print initialize vm reserved s =
  match android_log_print ANDROID_LOG_INFO "AppUpdater"%string
          "JNI_OnLoad called! Initializing Nitro modules..."%string (world s) with
  | (Returns n, w1) =>
      (fst (initialize vm w1),
       {| statics := statics s;
          trace := trace s ++ [banner; Initialize vm];
          world := snd (initialize vm w1) |})
  | (Throws e, w1) =>
      (Throws e,
       {| statics := statics s; trace := trace s ++ [banner]; world := w1 |})
  | (Diverges, w1) =>
      (Diverges,
       {| statics := statics s; trace := trace s ++ [banner]; world := w1 |})
  end.
Proof.
  unfold AnyCallee.JNI_OnLoad, banner. cbn.
  unfold M_bind, AnyCallee.call_android_log_print, call_initialize.
  destruct (android_log_print _ _ _ (world s)) as [[n|e|] w1];
    cbn; try reflexivity.
  destruct (initialize vm w1) as [o w2]. cbn.
  rewrite <- app_assoc. reflexivity.
Qed.

(** With a logging call that returns by its type, this reading of the source
    and the first one are the same function. *)
Lemma JNI_OnLoad_returning
  (log : android_LogPriority -> string -> string -> World -> Z * World)
  (vm reserved : pointer) (s : state World Statics) :
  AnyCallee.JNI_OnLoad (AnyCallee.returning log) initialize vm reserved s
  = JNI_OnLoad log initialize vm reserved s.
Proof.
  rewrite JNI_OnLoad_any_run, JNI_OnLoad_run.
  unfold AnyCallee.returning, world_after_log.
  destruct (log _ _ _ (world s)) as [n w1]. reflexivity.
Qed.

(** A logging call that throws or never comes back ends the bridge the same
    way, and the registration routine is not called. *)
Lemma JNI_OnLoad_log_fault
  (android_log_print :
     android_LogPriority -> string -> string -> World -> outcome Z * World)
  (vm reserved : pointer) (s : state World Statics) (o : outcome Z)
  (w1 : World) :
  android_log_print ANDROID_LOG_INFO "AppUpdater"%string
    "JNI_OnLoad called! Initializing Nitro modules..."%string (world s)
  = (o, w1) ->
  (forall n : Z, o <> Returns n) ->
  registrations
    (trace (snd (AnyCallee.JNI_OnLoad android_log_print initialize vm
                   reserved s)))
  = registrations (trace s)
  /\ (forall e : exn,
         o = Throws e ->
         fst (AnyCallee.JNI_OnLoad android_log_print initialize vm reserved s)
         = Throws e)
  /\ (o = Diverges ->
      fst (AnyCallee.JNI_OnLoad android_log_print initialize vm reserved s)
      = Diverges).
Proof.
  intros Hlog Hfault. rewrite JNI_OnLoad_any_run, Hlog.
  destruct o as [n|e|]; [exfalso; exact (Hfault n eq_refl) | |];
    cbn [fst snd trace]; rewrite registrations_app, app_nil_r;
    (split; [reflexivity|]); split; intros; congruence.
Qed.

(** C4, as the code has it (the report is dropped, a throw is not caught).
    Take two logging calls that both return, with any two reports, success
    or failure, and leave the same world.  The two runs of [JNI_OnLoad] are
    then the same run: the registration routine is called once with the
    handle, after the record, in the world the logging call left, and its
    outcome and world are those of [JNI_OnLoad].  With one logging call for
    both, this is every logging call that returns, whatever it did. *)
Theorem JNI_OnLoad_log_report_ignored
  (log1 log2 :
     android_LogPriority -> string -> string -> World -> outcome Z * World)
  (vm reserved : pointer) (s : state World Statics)
  (n1 n2 : Z) (w1 : World) :
  log1 ANDROID_LOG_INFO "AppUpdater"%string
    "JNI_OnLoad called! Initializing Nitro modules..."%string (world s)
  = (Returns n1, w1) ->
  log2 ANDROID_LOG_INFO "AppUpdater"%string
    "JNI_OnLoad called! Initializing Nitro modules..."%string (world s)
  = (Returns n2, w1) ->
  AnyCallee.JNI_OnLoad log1 initialize vm reserved s
  = AnyCallee.JNI_OnLoad log2 initialize vm reserved s
  /\ fst (AnyCallee.JNI_OnLoad log1 initialize vm reserved s)
     = fst (initialize vm w1)
  /\ world (snd (AnyCallee.JNI_OnLoad log1 initialize vm reserved s))
     = snd (initialize vm w1)
  /\ trace (snd (AnyCallee.JNI_OnLoad log1 initialize vm reserved s))
     = trace s ++ [banner; Initialize vm]
  /\ registrations
       (trace (snd (AnyCallee.JNI_OnLoad log1 initialize vm reserved s)))
     = registrations (trace s) ++ [vm].
Proof.
  intros H1 H2. rewrite !JNI_OnLoad_any_run, H1, H2. cbn [fst snd trace world].
  rewrite registrations_app. repeat split.
Qed.


End AnyCalleeFacts.

(** C4 fails as stated: a logging call that throws changes what the host
    gets, an exception where the working logging call gave the status 0,
    and keeps the registration routine from being called. *)
Lemma JNI_OnLoad_log_throw_escapes :
  let good :=
    AnyCallee.JNI_OnLoad (AnyCallee.returning Demo.logd_up) Demo.register_ok
      Demo.vm0 0%N Demo.start in
  let bad :=
    AnyCallee.JNI_OnLoad Demo.logd_throwing Demo.register_ok
      Demo.vm0 0%N Demo.start in
  fst good = Returns JNI_OK
  /\ registrations (trace (snd good)) = [Demo.vm0]
  /\ fst bad = Throws "logd"%string
  /\ registrations (trace (snd bad)) = []
  /\ Demo.registered (world (snd bad)) = [].
Proof. repeat split. Qed.


(** [JNI_OnLoad_log_report_ignored] with a logging call that reports a
    failure and one that reports success. *)
Lemma JNI_OnLoad_log_report_ignored_witness :
  Demo.logd_refusing ANDROID_LOG_INFO "AppUpdater"%string
    "JNI_OnLoad called! Initializing Nitro modules..."%string (world Demo.start)
  = (Returns (-11)%Z, Demo.boot)
  /\ Demo.logd_muted ANDROID_LOG_INFO "AppUpdater"%string
       "JNI_OnLoad called! Initializing Nitro modules..."%string (world Demo.start)
     = (Returns 1%Z, Demo.boot)
  /\ AnyCallee.JNI_OnLoad Demo.logd_refusing Demo.register_err
       Demo.vm0 0%N Demo.start
     = AnyCallee.JNI_OnLoad Demo.logd_muted Demo.register_err
         Demo.vm0 0%N Demo.start
  /\ fst (AnyCallee.JNI_OnLoad Demo.logd_refusing Demo.register_err
            Demo.vm0 0%N Demo.start)
     = fst (Demo.register_err Demo.vm0 Demo.boot).
Proof.
  assert (H1 : Demo.logd_refusing ANDROID_LOG_INFO "AppUpdater"%string
                 "JNI_OnLoad called! Initializing Nitro modules..."%string
                 (world Demo.start)
               = (Returns (-11)%Z, Demo.boot)) by reflexivity.
  assert (H2 : Demo.logd_muted ANDROID_LOG_INFO "AppUpdater"%string
                 "JNI_OnLoad called! Initializing Nitro modules..."%string
                 (world Demo.start)
               = (Returns 1%Z, Demo.boot)) by reflexivity.
  split; [exact H1|]. split; [exact H2|].
  pose proof (JNI_OnLoad_log_report_ignored _ _ Demo.register_err
                Demo.logd_refusing Demo.logd_muted Demo.vm0 0%N Demo.start
                (-11)%Z 1%Z Demo.boot H1 H2) as H.
  split; [exact (proj1 H) | exact (proj1 (proj2 H))].
Defined.

